(** * Verification of the fooof / specparam plotting, report and data utilities

    The development embeds, per component of the repository:
    - the label/key parser and the row/index selectors of
      [specparam.data.utils] ([Labels], [Select]);
    - the peak-fit reconstruction of [fooof.plts.periodic.plot_peak_fits]
      and the dependency guard of the plotting functions ([PeakFits]);
    - the layout computation and the figure life cycle of the
      [save_*_report] functions of [specparam.core.reports] ([Reports]). *)

From Stdlib Require Import List Ascii String Bool Arith ZArith Lia Permutation FinFun.
From Stdlib Require Import Reals Lra.
Import ListNotations.

(** ** Label/Key parser *)
Module Labels.

(** Keys of a results mapping, as the list of their characters. *)
Definition key := list ascii.
Definition str (s : string) : key := list_ascii_of_string s.

(** The three periodic attributes: center frequency, power, bandwidth. *)
Inductive attr := CF | PW | BW.

Definition attr_name (a : attr) : key :=
  match a with CF => str "cf" | PW => str "pw" | BW => str "bw" end.

Definition attr_eqb (a b : attr) : bool :=
  match a, b with CF, CF | PW, PW | BW, BW => true | _, _ => false end.

Fixpoint key_eqb (x y : key) : bool :=
  match x, y with
  | [], [] => true
  | c :: x', d :: y' => Ascii.eqb c d && key_eqb x' y'
  | _, _ => false
  end.

(** [strip_prefix p k] is [Some d] when [k = p ++ d]. *)
Fixpoint strip_prefix (p k : key) : option key :=
  match p, k with
  | [], _ => Some k
  | c :: p', d :: k' => if Ascii.eqb c d then strip_prefix p' k' else None
  | _ :: _, [] => None
  end.

Definition ends_with (s k : key) : bool :=
  match strip_prefix (rev s) (rev k) with Some _ => true | None => false end.

Definition is_digit (c : ascii) : bool :=
  let n := nat_of_ascii c in (48 <=? n) && (n <=? 57).

(** The three key forms of a periodic attribute [a]:
    the bare key [a] (one band fit), [{band}_a], and [a_{index}]. *)
Definition bare_key (a : attr) (k : key) : bool := key_eqb k (attr_name a).

Definition band_suffixed (a : attr) (k : key) : bool :=
  ends_with ("_"%char :: attr_name a) k.

Definition index_key (a : attr) (k : key) : bool :=
  match strip_prefix (attr_name a ++ ["_"%char]) k with
  | Some (d :: ds) => forallb is_digit (d :: ds)
  | _ => false
  end.

(** Modelled from the spec: [get_periodic_labels] (specparam.data.utils is
    not part of the sources).  Section 4.1: a key belongs to attribute [a]
    when it ends with [_a] or is the bare key [a]; the scenario of section 8
    (and the test [test_get_periodic_labels]) also counts the indexed form
    [cf_0].  Keys keep the iteration order of the mapping. *)
Definition matches (a : attr) (k : key) : bool :=
  bare_key a k || band_suffixed a k || index_key a k.

Record periodic_labels := mk_labels {
  lbl_cf : list key;
  lbl_pw : list key;
  lbl_bw : list key
}.

Definition lbl (l : periodic_labels) (a : attr) : list key :=
  match a with CF => lbl_cf l | PW => lbl_pw l | BW => lbl_bw l end.

(** A results mapping, in insertion order. *)
Definition results (V : Type) := list (key * V).

Definition get_periodic_labels {V : Type} (r : results V) : periodic_labels :=
  let keys := map fst r in
  {| lbl_cf := filter (matches CF) keys;
     lbl_pw := filter (matches PW) keys;
     lbl_bw := filter (matches BW) keys |}.

(** [get_band_labels] accepts a periodic-labels mapping or a results mapping. *)
Inductive band_input (V : Type) :=
| LabelsIn (l : periodic_labels)
| ResultsIn (r : results V).
Arguments LabelsIn {V} l.
Arguments ResultsIn {V} r.

(** Strip the [_cf] suffix of a key of the [cf] list. *)
Definition band_name (k : key) : key :=
  if ends_with (str "_cf") k then firstn (List.length k - 3) k else k.

(** Deduplicate, keeping the first occurrence of each name. *)
Fixpoint dedup_seen (seen : list key) (l : list key) : list key :=
  match l with
  | [] => []
  | x :: l' =>
      if existsb (key_eqb x) seen then dedup_seen seen l'
      else x :: dedup_seen (x :: seen) l'
  end.

(** Modelled from the spec: [get_band_labels] (section 4.1). *)
Definition get_band_labels {V : Type} (inp : band_input V) : list key :=
  let l := match inp with
           | LabelsIn l => l
           | ResultsIn r => get_periodic_labels r
           end in
  dedup_seen [] (map band_name (lbl_cf l)).

(** The key [{band}_a]. *)
Definition band_key (b : key) (a : attr) : key := b ++ "_"%char :: attr_name a.


(** The test dictionaries of [test_utils.py]. *)
Definition tdict1 : results (list nat) :=
  [(str "offset", [1;1]); (str "exponent", [1;1]); (str "error", [1;1]);
   (str "r_squared", [1;1])].
Definition tdict2 : results (list nat) :=
  tdict1 ++ [(str "cf_0", [1;1]); (str "pw_0", [1;1]); (str "bw_0", [1;1])].
Definition tdict3 : results (list nat) :=
  tdict1 ++ [(str "alpha_cf", [1;1]); (str "alpha_pw", [1;1]); (str "alpha_bw", [1;1]);
             (str "beta_cf", [1;1]); (str "beta_pw", [1;1]); (str "beta_bw", [1;1])].

Example test_get_periodic_labels_1 : get_periodic_labels tdict1 = mk_labels [] [] [].
Proof. vm_compute. reflexivity. Qed.
Example test_get_periodic_labels_2 :
  get_periodic_labels tdict2 = mk_labels [str "cf_0"] [str "pw_0"] [str "bw_0"].
Proof. vm_compute. reflexivity. Qed.
Example test_get_band_labels_2 :
  get_band_labels (@LabelsIn nat (mk_labels [str "alpha_cf"; str "beta_cf"]
                                 [str "alpha_pw"; str "beta_pw"]
                                 [str "alpha_bw"; str "beta_bw"]))
  = [str "alpha"; str "beta"].
Proof. vm_compute. reflexivity. Qed.
Example test_get_band_labels_3 :
  get_band_labels (ResultsIn tdict3) = [str "alpha"; str "beta"].
Proof. vm_compute. reflexivity. Qed.

(** *** Lemmas on keys *)

Lemma key_eqb_eq (x y : key) : key_eqb x y = true -> x = y.
Proof.
  revert y; induction x as [|c x IH]; intros [|d y]; simpl; try discriminate; auto.
  intros H; apply andb_prop in H as [H1 H2].
  apply Ascii.eqb_eq in H1; subst; f_equal; auto.
Qed.

Lemma key_eqb_refl (x : key) : key_eqb x x = true.
Proof. induction x as [|c x IH]; simpl; auto. rewrite Ascii.eqb_refl; auto. Qed.

Lemma strip_prefix_some (p k d : key) : strip_prefix p k = Some d -> k = p ++ d.
Proof.
  revert k; induction p as [|c p IH]; intros [|e k]; simpl; try discriminate.
  - congruence.
  - congruence.
  - destruct (Ascii.eqb c e) eqn:E; [|discriminate].
    apply Ascii.eqb_eq in E; subst; intros H; f_equal; auto.
Qed.

Lemma strip_prefix_app (p d : key) : strip_prefix p (p ++ d) = Some d.
Proof. induction p as [|c p IH]; simpl; auto. rewrite Ascii.eqb_refl; auto. Qed.

Lemma ends_with_some (s k : key) : ends_with s k = true -> exists b, k = b ++ s.
Proof.
  unfold ends_with; destruct (strip_prefix (rev s) (rev k)) as [d|] eqn:E; [|discriminate].
  intros _; apply strip_prefix_some in E.
  exists (rev d). rewrite <- (rev_involutive k), E, rev_app_distr, rev_involutive; auto.
Qed.

Lemma ends_with_app (b s : key) : ends_with s (b ++ s) = true.
Proof. unfold ends_with; rewrite rev_app_distr, strip_prefix_app; auto. Qed.

Lemma band_suffixed_band_key (b : key) (a a' : attr) :
  band_suffixed a' (band_key b a) = attr_eqb a a'.
Proof.
  unfold band_suffixed, ends_with, band_key.
  rewrite rev_app_distr; destruct a, a'; reflexivity.
Qed.

Lemma bare_key_band_key (b : key) (a a' : attr) : bare_key a' (band_key b a) = false.
Proof.
  unfold bare_key; destruct (key_eqb _ _) eqn:E; auto.
  apply key_eqb_eq in E; apply (f_equal (@List.length ascii)) in E.
  unfold band_key in E; rewrite length_app in E; destruct a, a'; simpl in E; lia.
Qed.

Lemma index_key_band_key (b : key) (a a' : attr) : index_key a' (band_key b a) = false.
Proof.
  unfold index_key; destruct (strip_prefix _ _) as [[|d ds]|] eqn:E; auto.
  apply strip_prefix_some in E; apply (f_equal (@rev ascii)) in E.
  unfold band_key in E; rewrite !rev_app_distr in E.
  destruct (rev (d :: ds)) as [|y ys] eqn:R.
  - apply (f_equal (@List.length ascii)) in R; rewrite length_rev in R; discriminate.
  - assert (Hy : In y (d :: ds)) by (apply in_rev; rewrite R; left; auto).
    destruct (forallb is_digit (d :: ds)) eqn:F; auto.
    rewrite forallb_forall in F; specialize (F y Hy).
    destruct a; simpl in E; injection E; intros; subst; discriminate.
Qed.

Lemma matches_band_key (b : key) (a a' : attr) :
  matches a' (band_key b a) = attr_eqb a a'.
Proof.
  unfold matches; rewrite bare_key_band_key, band_suffixed_band_key, index_key_band_key.
  destruct (attr_eqb a a'); auto.
Qed.

Lemma attr_eqb_true (a a' : attr) : attr_eqb a a' = true -> a = a'.
Proof. destruct a, a'; simpl; congruence. Qed.

Lemma band_name_band_key (b : key) : band_name (band_key b CF) = b.
Proof.
  unfold band_name.
  change (str "_cf") with ("_"%char :: attr_name CF).
  fold (band_suffixed CF (band_key b CF)); rewrite band_suffixed_band_key; simpl.
  unfold band_key; rewrite length_app; simpl.
  replace (List.length b + 3 - 3) with (List.length b) by lia.
  rewrite firstn_app, firstn_all, Nat.sub_diag; simpl; apply app_nil_r.
Qed.

Lemma ends_with_cf (k : key) : ends_with (str "_cf") k = band_suffixed CF k.
Proof. reflexivity. Qed.

Lemma band_key_inj (a : attr) : Injective (fun b => band_key b a).
Proof. intros x y H; unfold band_key in H; apply app_inv_tail in H; auto. Qed.

Lemma dedup_seen_nodup (seen l : list key) :
  NoDup l -> (forall x, In x l -> ~ In x seen) -> dedup_seen seen l = l.
Proof.
  revert seen; induction l as [|x l IH]; intros seen Hnd Hout; simpl; auto.
  inversion Hnd as [|? ? Hx Hl]; subst.
  destruct (existsb (key_eqb x) seen) eqn:E.
  - apply existsb_exists in E as [y [Hy Hxy]]; apply key_eqb_eq in Hxy; subst.
    exfalso; apply (Hout y); simpl; auto.
  - f_equal; apply IH; auto.
    intros z Hz [Hzx|Hzs]; subst; [contradiction|].
    apply (Hout z); simpl; auto.
Qed.

End Labels.

(** ** Row/Index selector *)
Module Select.
Import Labels.

(** Python indexing of a sequence: a negative index counts from the end,
    an index out of range raises ([None]). *)
Definition py_index {A : Type} (s : list A) (i : Z) : option A :=
  if (0 <=? i)%Z then nth_error s (Z.to_nat i)
  else if (0 <=? Z.of_nat (List.length s) + i)%Z
       then nth_error s (Z.to_nat (Z.of_nat (List.length s) + i))
       else None.

(** [results[key]] of a Python dict: the value of the key. *)
Fixpoint lookup {V : Type} (k : key) (r : results V) : option V :=
  match r with
  | [] => None
  | (k', v) :: r' => if key_eqb k k' then Some v else lookup k r'
  end.

(** [{key : results[key][index] for key in results}]: a key whose sequence
    is too short makes the whole call fail. *)
Fixpoint select_each {A : Type} (r : results (list A)) (i : Z) : option (results A) :=
  match r with
  | [] => Some []
  | (k, s) :: r' =>
      match py_index s i with
      | None => None
      | Some v =>
          match select_each r' i with
          | None => None
          | Some o => Some ((k, v) :: o)
          end
      end
  end.

(** Modelled from the spec: [get_results_by_ind] (section 4.2), the scalar at
    position [index] of each one-dimensional sequence. *)
Definition get_results_by_ind {A : Type} (r : results (list A)) (ind : Z) : option (results A) :=
  select_each r ind.

(** Modelled from the spec: [get_results_by_row] (section 4.2), the row
    [row_index] of each two-dimensional array, an array being its list of rows. *)
Definition get_results_by_row {A : Type} (r : results (list (list A))) (ind : Z)
  : option (results (list A)) :=
  select_each r ind.

Definition tdict_ind : results (list nat) :=
  [(str "offset", [0;1]); (str "exponent", [0;1]); (str "error", [0;1]);
   (str "r_squared", [0;1]); (str "alpha_cf", [0;1]); (str "alpha_pw", [0;1]);
   (str "alpha_bw", [0;1])].

Definition tdict_row : results (list (list nat)) :=
  map (fun k => (k, [[0;1];[2;3]]))
      [str "offset"; str "exponent"; str "error"; str "r_squared";
       str "alpha_cf"; str "alpha_pw"; str "alpha_bw"].

Example test_get_results_by_ind :
  get_results_by_ind tdict_ind 1 = Some (map (fun k => (fst k, 1)) tdict_ind).
Proof. reflexivity. Qed.

Example test_get_results_by_row :
  get_results_by_row tdict_row 1 = Some (map (fun k => (fst k, [2;3])) tdict_row).
Proof. reflexivity. Qed.

Lemma select_each_spec {A : Type} (r : results (list A)) (i : Z) :
  (forall k s, In (k, s) r -> py_index s i <> None) ->
  exists out, select_each r i = Some out /\ map fst out = map fst r /\
    forall k s, lookup k r = Some s -> lookup k out = py_index s i.
Proof.
  induction r as [|[k s] r IH]; intros Hvalid.
  - exists []; repeat split; simpl; intros; discriminate.
  - destruct (py_index s i) as [v|] eqn:Ev;
      [|exfalso; apply (Hvalid k s); simpl; auto].
    destruct IH as [o [Ho [Hkeys Hval]]].
    { intros k' s' Hin; apply (Hvalid k' s'); simpl; auto. }
    exists ((k, v) :: o); simpl; rewrite Ev, Ho; repeat split.
    + simpl; f_equal; exact Hkeys.
    + intros k' s'; simpl; destruct (key_eqb k' k).
      * intros Hs; injection Hs as <-; auto.
      * apply Hval.
Qed.

End Select.

(** ** Peak plotting: [fooof.plts.periodic] *)
Module PeakFits.
Local Open Scope R_scope.

(** A numpy float: a finite value or NaN (missing peak). *)
Inductive fl := Fin (x : R) | NaN.

(** [np.nansum] counts a NaN as zero. *)
Definition nan0 (v : fl) : R := match v with Fin x => x | NaN => 0 end.

Definition fmul (v : fl) (c : R) : fl :=
  match v with Fin x => Fin (x * c) | NaN => NaN end.

(** A row of the peak array, [CF, PW, BW]. *)
Record peak := mk_peak { pk_cf : fl; pk_pw : fl; pk_bw : fl }.

Inductive err := ImportError | ValueError | TypeError | AttributeError | RenderError.

Inductive result (A : Type) := Ok (a : A) | Err (e : err).
Arguments Ok {A} a.
Arguments Err {A} e.

(** [peaks[~np.isnan(peaks[:, 0]), 0]]: the values that are not NaN. *)
Fixpoint nonnan (l : list fl) : list R :=
  match l with
  | [] => []
  | Fin x :: l' => x :: nonnan l'
  | NaN :: l' => nonnan l'
  end.

Definition f_buffer : R := 4.

(** The default frequency range of [plot_peak_fits]; [cfs.min()] of an empty
    array raises a ValueError. *)
Definition default_freq_range (peaks : list peak) : result (R * R) :=
  match nonnan (map pk_cf peaks) with
  | [] => Err ValueError
  | c :: cs =>
      let mn := fold_left Rmin cs c in
      let mx := fold_left Rmax cs c in
      Ok ((if Rgt_dec (mn - f_buffer) 0 then mn - f_buffer else 0), mx + f_buffer)
  end.

(** Modelled from the spec: [gen_freqs] (fooof.sim, not in the sources), the
    frequency axis from the lower to the upper bound of the range in steps of
    the resolution (section 4.3); empty when the upper bound is below the
    lower one. *)
Definition gen_freqs (freq_range : R * R) (freq_res : R) : list R :=
  if Rle_dec (fst freq_range) (snd freq_range) then
    let n := Z.to_nat (Int_part ((snd freq_range - fst freq_range) / freq_res)) in
    map (fun j => fst freq_range + INR j * freq_res) (seq 0 (S n))
  else [].

(** Modelled from the spec: [gaussian_function] (fooof.core.funcs, not in the
    sources), the Gaussian reconstructed from a peak [CF, PW, BW], with the
    float semantics of numpy: a NaN parameter gives NaN; with a zero width,
    [-(f - cf)**2 / 0] is [-inf] (so the value is 0) away from the center and
    NaN at it. *)
Definition gaussian_function (f : R) (p : peak) : fl :=
  match pk_cf p, pk_pw p, pk_bw p with
  | Fin ctr, Fin hgt, Fin wid =>
      if Req_EM_T wid 0 then (if Req_EM_T f ctr then NaN else Fin 0)
      else Fin (hgt * exp (- (f - ctr) ^ 2 / (2 * wid ^ 2)))
  | _, _, _ => NaN
  end.

Fixpoint zip_with {A B C : Type} (f : A -> B -> C) (l1 : list A) (l2 : list B) : list C :=
  match l1, l2 with
  | x :: l1', y :: l2' => f x y :: zip_with f l1' l2'
  | _, _ => []
  end.

(** [avg_vals = np.nansum(np.vstack([avg_vals, peak_vals]), axis=0)];
    [avg_vals] never holds a NaN.  The sums are taken exactly, over the
    reals: the rounding of the floating-point additions, whose result
    depends on the order of the rows, is not modelled. *)
Definition nansum_rows (avg_vals : list R) (peak_vals : list fl) : list R :=
  zip_with (fun a v => a + nan0 v) avg_vals peak_vals.

(** The loop over the peak rows: the curves drawn, and the final [avg_vals]. *)
Fixpoint fit_loop (freqs : list R) (peaks : list peak) (avg_vals : list R)
  : list (list fl) * list R :=
  match peaks with
  | [] => ([], avg_vals)
  | p :: ps =>
      let peak_vals := map (fun f => gaussian_function f p) freqs in
      let (curves, avg) := fit_loop freqs ps (nansum_rows avg_vals peak_vals) in
      (peak_vals :: curves, avg)
  end.

(** [avg_vals / peaks.shape[0]]: with no rows, [avg_vals] is all zeros and
    numpy's [0.0 / 0] is NaN (a warning, not an exception). *)
Definition div_count (a : R) (n : nat) : fl :=
  match n with O => NaN | _ => Fin (a / INR n) end.

(** [check_plot_kwargs(plot_kwargs, {'linewidth' : 1.25, ...})], for the
    linewidth: a user value is kept, else the default is set. *)
Definition check_plot_kwargs_lw (lw : option R) : option R :=
  match lw with Some w => Some w | None => Some (5 / 4) end.

Record fits_plot := mk_fits_plot {
  pf_freq_range : R * R;
  pf_freqs : list R;
  pf_curves : list (list fl);
  pf_avg : list fl;
  pf_avg_lw : R
}.

(** [plot_peak_fits] on a single peak array, with [colors] and [labels]
    left at their default [None] and no plot keyword other than
    [linewidth]: [freq_range] is the optional range, [lw_kw] the
    [linewidth] keyword, given as a number or not given.  The linewidth
    read after the loop is set by [check_plot_kwargs] only when the loop
    ran; [None * 3] is a TypeError. *)
Definition plot_peak_fits (peaks : list peak) (freq_range : option (R * R))
  (lw_kw : option R) : result fits_plot :=
  match match freq_range with
        | Some fr => Ok fr
        | None => default_freq_range peaks
        end with
  | Err e => Err e
  | Ok fr =>
      let freqs := gen_freqs fr (1 / 10) in
      let (curves, avg_vals) := fit_loop freqs peaks (repeat 0 (List.length freqs)) in
      let avg := map (fun a => div_count a (List.length peaks)) avg_vals in
      let lw := match peaks with [] => lw_kw | _ => check_plot_kwargs_lw lw_kw end in
      match lw with
      | None => Err TypeError
      | Some w =>
          Ok {| pf_freq_range := fr; pf_freqs := freqs; pf_curves := curves;
                pf_avg := avg; pf_avg_lw := w * 3 |}
      end
  end.

(** Figure axes. *)
Inductive axes := Axes (id : nat).

(** Modelled from the spec: the guard [check_dependency] (fooof.core.modutils,
    not in the sources): a call of a guarded function fails with an
    ImportError when the optional dependency is missing (section 7 (a)). *)
Definition check_dependency {A : Type} (dep_available : bool) (call : result A) : result A :=
  if dep_available then call else Err ImportError.

(** [check_ax(ax, figsize)] (fooof.plts.utils, not in the sources): the given
    axes, or new axes from [plt.subplots]; when matplotlib is missing [plt]
    is [False] and the attribute access raises. *)
Definition check_ax (mpl : bool) (ax : option axes) : result axes :=
  match ax with
  | Some a => Ok a
  | None => if mpl then Ok (Axes 0) else Err AttributeError
  end.

Record scatter := mk_scatter {
  sc_xs : list fl;
  sc_ys : list fl;
  sc_sizes : list fl;
  sc_xlim : option (R * R)
}.

(** [plot_peak_params] on a single peak array: CF as x, PW as y, BW times
    the size multiplier [s] (default 150) as marker size. *)
Definition plot_peak_params (peaks : list peak) (freq_range : option (R * R))
  (s : option R) : result scatter :=
  let s := match s with Some s => s | None => 150 end in
  Ok {| sc_xs := map pk_cf peaks; sc_ys := map pk_pw peaks;
        sc_sizes := map (fun p => fmul (pk_bw p) s) peaks; sc_xlim := freq_range |}.

(** [@check_dependency(plt, 'matplotlib') def plot_peak_params(...)]. *)
Definition plot_peak_params_call (mpl : bool) (ax : option axes) (peaks : list peak)
  (freq_range : option (R * R)) (s : option R) : result scatter :=
  check_dependency mpl
    (match check_ax mpl ax with
     | Err e => Err e
     | Ok _ => plot_peak_params peaks freq_range s
     end).

(** [def plot_peak_fits(...)]: no dependency guard. *)
Definition plot_peak_fits_call (mpl : bool) (ax : option axes) (peaks : list peak)
  (freq_range : option (R * R)) (lw_kw : option R) : result fits_plot :=
  match check_ax mpl ax with
  | Err e => Err e
  | Ok _ => plot_peak_fits peaks freq_range lw_kw
  end.

(** Sum of a list of reals. *)
Definition Rsum (l : list R) : R := fold_right Rplus 0 l.

(** The two example peak arrays of the spec, section 8. *)
Definition peaks_8_12 : list peak :=
  [mk_peak (Fin 8) (Fin 1) (Fin 1); mk_peak (Fin 12) (Fin 1) (Fin 1)].
Definition peaks_1_2 : list peak :=
  [mk_peak (Fin 1) (Fin 1) (Fin 1); mk_peak (Fin 2) (Fin 1) (Fin 1)].

(** The range [plot_peak_fits] works on: the given one, or the default. *)
Definition range_of (peaks : list peak) (fr : option (R * R)) : result (R * R) :=
  match fr with Some r => Ok r | None => default_freq_range peaks end.

(** A peak array with one row whose parameters are all NaN. *)
Definition peaks_nan : list peak := [mk_peak NaN NaN NaN].

(** A peak array whose center frequency is below -4. *)
Definition peaks_neg : list peak := [mk_peak (Fin (-10)) (Fin 1) (Fin 1)].

End PeakFits.

(** ** Report assembler: [specparam.core.reports] *)
Module Reports.
Import Labels PeakFits.
Local Open Scope R_scope.

(** The figures pyplot holds open (the current one first), and the number
    of the next figure. *)
Record plt_state := mk_plt { open_figs : list nat; next_fig : nat }.

(** A pyplot call: a result (an exception propagates) and the new state. *)
Definition M (A : Type) := plt_state -> result A * plt_state.

Definition ret {A : Type} (a : A) : M A := fun st => (Ok a, st).
Definition bind {A B : Type} (m : M A) (k : A -> M B) : M B :=
  fun st => match m st with
            | (Ok a, st') => k a st'
            | (Err e, st') => (Err e, st')
            end.
Definition raise {A : Type} (e : err) : M A := fun st => (Err e, st).

Notation "x <- c1 ;; c2" := (bind c1 (fun x => c2))
  (at level 61, c1 at next level, right associativity).
Notation "c1 ;; c2" := (bind c1 (fun _ => c2)) (at level 61, right associativity).

(** [plt.figure()]: a new figure, which becomes the current one. *)
Definition figure : M unit :=
  fun st => (Ok tt, mk_plt (next_fig st :: open_figs st) (S (next_fig st))).

(** [plt.close()]: closes the current figure. *)
Definition close : M unit :=
  fun st => (Ok tt, mk_plt (tl (open_figs st)) (next_fig st)).

(** A grid of [n_rows] rows: matplotlib raises a ValueError when the
    height ratios do not give one ratio per row. *)
Definition gridspec (n_rows : nat) (height_ratios : list R) : M unit :=
  if Nat.eqb n_rows (List.length height_ratios) then ret tt else raise ValueError.

(** [plt.subplots(n_rows, 1, gridspec_kw={'height_ratios': ...})]: the figure
    is created before the grid is checked. *)
Definition subplots (n_rows : nat) (height_ratios : list R) : M unit :=
  figure ;; gridspec n_rows height_ratios.

(** The outcome of the calls to collaborators: the results and settings
    strings, the k-th data plot and [plt.savefig]. *)
Record collab := mk_collab {
  c_results_str : result unit;
  c_plot : nat -> result unit;
  c_settings_str : result unit;
  c_savefig : result unit
}.

Definition ext (r : result unit) : M unit := fun st => (r, st).

(** [@check_dependency(plt, 'matplotlib')] on a report function. *)
Definition guard {A : Type} (mpl : bool) (m : M A) : M A :=
  fun st => match check_dependency mpl (Ok tt) with
            | Ok _ => m st
            | Err e => (Err e, st)
            end.

Definition when (b : bool) (m : M unit) : M unit := if b then m else ret tt.

(** [save_model_report]. *)
Definition model_n_rows (add_settings : bool) : nat := if add_settings then 3%nat else 2%nat.
Definition model_height_ratios (add_settings : bool) : list R :=
  if add_settings then [0.5; 1.0; 0.25] else [0.45; 1.0].

Definition save_model_report (mpl add_settings : bool) (c : collab) : M unit :=
  guard mpl
    (figure ;;
     gridspec (model_n_rows add_settings) (model_height_ratios add_settings) ;;
     ext (c_results_str c) ;;
     ext (c_plot c 0%nat) ;;
     when add_settings (ext (c_settings_str c)) ;;
     ext (c_savefig c) ;;
     close).

(** [save_group_report]. *)
Definition group_n_rows (add_settings : bool) : nat := if add_settings then 4%nat else 3%nat.
Definition group_height_ratios (add_settings : bool) : list R :=
  if add_settings then [1.0; 1.0; 1.0; 0.5] else [0.8; 1.0; 1.0].

Definition save_group_report (mpl add_settings : bool) (c : collab) : M unit :=
  guard mpl
    (figure ;;
     gridspec (group_n_rows add_settings) (group_height_ratios add_settings) ;;
     ext (c_results_str c) ;;
     ext (c_plot c 0%nat) ;;
     ext (c_plot c 1%nat) ;;
     ext (c_plot c 2%nat) ;;
     when add_settings (ext (c_settings_str c)) ;;
     ext (c_savefig c) ;;
     close).

(** [save_time_report]: [n_rows = 1 + 2 + n_bands + (1 if add_settings else 0)]. *)
Definition time_n_rows (n_bands : nat) (add_settings : bool) : nat :=
  1 + 2 + n_bands + (if add_settings then 1 else 0).
Definition time_height_ratios (n_bands : nat) (add_settings : bool) : list R :=
  [1.0] ++ repeat 0.5 (n_bands + 2) ++ (if add_settings then [0.4] else []).

Definition save_time_report {V : Type} (mpl add_settings : bool) (time_results : results V)
  (c : collab) : M unit :=
  guard mpl
    (let n_bands := List.length (lbl_cf (get_periodic_labels time_results)) in
     subplots (time_n_rows n_bands add_settings) (time_height_ratios n_bands add_settings) ;;
     ext (c_results_str c) ;;
     ext (c_plot c 0%nat) ;;
     when add_settings (ext (c_settings_str c)) ;;
     ext (c_savefig c) ;;
     close).

(** [save_event_report]: [n_rows = 1 + (4 if has_knee else 3) + n_bands * 4 + 2
    + (1 if add_settings else 0)]. *)
Definition event_n_rows (n_bands : nat) (has_knee add_settings : bool) : nat :=
  1 + (if has_knee then 4 else 3) + n_bands * 4 + 2 + (if add_settings then 1 else 0).
Definition event_height_ratios (n_bands : nat) (has_knee add_settings : bool) : list R :=
  [2.75] ++ repeat 1 (if has_knee then 3 else 2)%nat ++
  List.concat (repeat [0.25; 1; 1; 1] n_bands) ++ [0.25] ++ [1; 1] ++
  (if add_settings then [1.5] else []).

Definition save_event_report {V : Type} (mpl add_settings : bool)
  (event_time_results : results V) (c : collab) : M unit :=
  guard mpl
    (let n_bands := List.length (lbl_cf (get_periodic_labels event_time_results)) in
     let has_knee := existsb (key_eqb (str "knee")) (map fst event_time_results) in
     subplots (event_n_rows n_bands has_knee add_settings)
              (event_height_ratios n_bands has_knee add_settings) ;;
     ext (c_results_str c) ;;
     ext (c_plot c 0%nat) ;;
     when add_settings (ext (c_settings_str c)) ;;
     ext (c_savefig c) ;;
     close).

(** Every collaborator call succeeds. *)
Definition collab_ok (c : collab) : Prop :=
  c_results_str c = Ok tt /\ (forall k, c_plot c k = Ok tt) /\
  c_settings_str c = Ok tt /\ c_savefig c = Ok tt.

(** Python's normalisation of a slice bound [i] for a sequence of length
    [len]: a negative bound counts from the end and is raised to 0, a bound
    past the end is lowered to the length. *)
Definition py_bound (len : nat) (i : Z) : nat :=
  if (i <? 0)%Z then Z.to_nat (i + Z.of_nat len) else Nat.min (Z.to_nat i) len.

(** [s[i:j]]. *)
Definition py_slice {A : Type} (s : list A) (i j : Z) : list A :=
  let a := py_bound (List.length s) i in
  let b := py_bound (List.length s) j in
  firstn (b - a) (skipn a s).

(** Which of the axes returned by [plt.subplots] (one per grid row,
    numbered from the top) a report writes to: the results text, the axes
    handed to the model's [plot], and the settings text. *)
Record report_axes := mk_report_axes {
  ax_results : option nat;
  ax_plot : list nat;
  ax_settings : option nat
}.

(** [save_time_report]: [axes[0]], [axes[1:2+n_bands+1]] and, with the
    settings, [axes[-1]]. *)
Definition time_report_axes (n_bands : nat) (add_settings : bool) : report_axes :=
  let axes := seq 0 (time_n_rows n_bands add_settings) in
  {| ax_results := Select.py_index axes 0;
     ax_plot := py_slice axes 1 (Z.of_nat (2 + n_bands + 1));
     ax_settings := if add_settings then Select.py_index axes (-1) else None |}.

(** [save_event_report]: [axes[0]], [axes[1:-1]] and, with the settings,
    [axes[-1]]. *)
Definition event_report_axes (n_bands : nat) (has_knee add_settings : bool) : report_axes :=
  let axes := seq 0 (event_n_rows n_bands has_knee add_settings) in
  {| ax_results := Select.py_index axes 0;
     ax_plot := py_slice axes 1 (-1);
     ax_settings := if add_settings then Select.py_index axes (-1) else None |}.

End Reports.

(** * Properties of the label parser *)
Module LabelProps.
Import Labels.

(** Each attribute list lists exactly the [{band}_a] keys of the bands. *)
Lemma periodic_labels_band_count {V : Type} (r : results V) (bands : list key) (a : attr) :
  NoDup (map fst r) -> NoDup bands ->
  (forall k, In k (map fst r) ->
     (forall a', matches a' k = false) \/ exists b a', In b bands /\ k = band_key b a') ->
  (forall b a', In b bands -> In (band_key b a') (map fst r)) ->
  List.length (lbl (get_periodic_labels r) a) = List.length bands.
Proof.
  intros Hk Hb Hshape Hall.
  transitivity (List.length (map (fun b => band_key b a) bands)); [|apply length_map].
  apply Permutation_length, NoDup_Permutation.
  - destruct a; apply NoDup_filter; auto.
  - apply Injective_map_NoDup; [apply band_key_inj|auto].
  - intros k; split.
    + intros Hin.
      assert (Hf : In k (map fst r) /\ matches a k = true)
        by (destruct a; apply filter_In in Hin; auto).
      destruct Hf as [Hin' Hm].
      destruct (Hshape k Hin') as [Hno | [b [a' [Hbin ->]]]].
      * rewrite Hno in Hm; discriminate.
      * rewrite matches_band_key in Hm; apply attr_eqb_true in Hm; subst.
        apply in_map_iff; exists b; auto.
    + intros Hin; apply in_map_iff in Hin as [b [<- Hbin]].
      assert (Hm : matches a (band_key b a) = true)
        by (rewrite matches_band_key; destruct a; auto).
      destruct a; apply filter_In; split; auto.
Qed.

(** A key of none of the three periodic forms belongs to no attribute. *)
Lemma matches_non_periodic (a : attr) (k : key) :
  k <> attr_name a ->
  (forall b, k <> band_key b a) ->
  (forall d, d <> [] -> forallb is_digit d = true -> k <> attr_name a ++ "_"%char :: d) ->
  matches a k = false.
Proof.
  intros Hbare Hband Hidx; unfold matches.
  destruct (bare_key a k) eqn:E1.
  { apply key_eqb_eq in E1; contradiction. }
  destruct (band_suffixed a k) eqn:E2.
  { apply ends_with_some in E2 as [b ->]; exfalso; apply (Hband b); reflexivity. }
  unfold index_key; destruct (strip_prefix _ k) as [[|d ds]|] eqn:E3; auto.
  destruct (forallb is_digit (d :: ds)) eqn:F; auto.
  apply strip_prefix_some in E3; rewrite <- app_assoc in E3.
  exfalso; apply (Hidx (d :: ds)); [discriminate|exact F|exact E3].
Qed.

Lemma filter_all_false {A : Type} (f : A -> bool) (l : list A) :
  (forall x, In x l -> f x = false) -> filter f l = [].
Proof.
  induction l as [|x l IH]; intros H; simpl; auto.
  rewrite (H x (or_introl eq_refl)); apply IH; intros y Hy; apply H; right; auto.
Qed.

End LabelProps.

(** * Properties of the peak-fit reconstruction *)
Module PeakFitProps.
Import PeakFits.
Local Open Scope R_scope.

Lemma nth_zip_with {A B C : Type} (f : A -> B -> C) (l1 : list A) (l2 : list B)
  (j : nat) (d1 : A) (d2 : B) (d : C) :
  (j < List.length l1)%nat -> (j < List.length l2)%nat ->
  nth j (zip_with f l1 l2) d = f (nth j l1 d1) (nth j l2 d2).
Proof.
  revert l2 j; induction l1 as [|x l1 IH]; intros [|y l2] j H1 H2; simpl in *; try lia.
  destruct j; auto; apply IH; lia.
Qed.

Lemma length_zip_with {A B C : Type} (f : A -> B -> C) (l1 : list A) (l2 : list B) :
  List.length l1 = List.length l2 -> List.length (zip_with f l1 l2) = List.length l1.
Proof.
  revert l2; induction l1 as [|x l1 IH]; intros [|y l2] H; simpl in *; try lia.
  f_equal; apply IH; lia.
Qed.

Lemma zip_with_repeat {A B C : Type} (f : A -> B -> C) (x : A) (n : nat) (l : list B) :
  n = List.length l -> zip_with f (repeat x n) l = map (f x) l.
Proof.
  intros ->; induction l as [|y l IH]; simpl; f_equal; auto.
Qed.

(** The loop draws one curve per row and adds each curve, NaN as zero. *)
Lemma fit_loop_spec (freqs : list R) (peaks : list peak) (acc : list R) :
  List.length acc = List.length freqs ->
  fst (fit_loop freqs peaks acc) = map (fun p => map (fun f => gaussian_function f p) freqs) peaks /\
  List.length (snd (fit_loop freqs peaks acc)) = List.length freqs /\
  forall j, (j < List.length freqs)%nat ->
    nth j (snd (fit_loop freqs peaks acc)) 0 =
    nth j acc 0 + Rsum (map (fun c => nan0 (nth j c NaN)) (fst (fit_loop freqs peaks acc))).
Proof.
  revert acc; induction peaks as [|p ps IH]; intros acc Hlen.
  - simpl; repeat split; auto; intros; unfold Rsum; simpl; ring.
  - simpl.
    set (vals := map (fun f => gaussian_function f p) freqs).
    assert (Hv : List.length vals = List.length freqs) by apply length_map.
    assert (Hn : List.length (nansum_rows acc vals) = List.length freqs)
      by (unfold nansum_rows; rewrite length_zip_with; lia).
    destruct (IH (nansum_rows acc vals) Hn) as [Hc [Hl Hs]].
    destruct (fit_loop freqs ps (nansum_rows acc vals)) as [cs a] eqn:E; simpl in *.
    repeat split.
    + f_equal; exact Hc.
    + exact Hl.
    + intros j Hj; rewrite Hs by exact Hj.
      unfold nansum_rows; rewrite (nth_zip_with _ _ _ j 0 NaN) by lia.
      unfold Rsum; simpl; ring.
Qed.

(** Inversion of a successful call. *)
Lemma plot_peak_fits_ok (peaks : list peak) (fr : option (R * R)) (lw : option R)
  (p : fits_plot) :
  plot_peak_fits peaks fr lw = Ok p ->
  match fr with Some r => Ok r | None => default_freq_range peaks end = Ok (pf_freq_range p) /\
  pf_freqs p = gen_freqs (pf_freq_range p) (1 / 10) /\
  pf_curves p = fst (fit_loop (pf_freqs p) peaks (repeat 0 (List.length (pf_freqs p)))) /\
  pf_avg p = map (fun a => div_count a (List.length peaks))
               (snd (fit_loop (pf_freqs p) peaks (repeat 0 (List.length (pf_freqs p))))).
Proof.
  unfold plot_peak_fits.
  destruct (match fr with Some r => Ok r | None => default_freq_range peaks end)
    as [r|e] eqn:Efr; [|discriminate].
  destruct (fit_loop _ peaks _) as [cs a] eqn:E.
  destruct (match peaks with [] => lw | _ => check_plot_kwargs_lw lw end); [|discriminate].
  intros H; injection H as <-; cbn [pf_freqs pf_curves pf_avg pf_freq_range]; rewrite E; auto.
Qed.

Lemma nonnan_in (l : list fl) (x : R) : In x (nonnan l) <-> In (Fin x) l.
Proof.
  induction l as [|[y|] l IH]; simpl; [tauto| |].
  - rewrite IH; split; intros [H|H]; auto; [left; congruence | left; congruence].
  - rewrite IH; split; [auto | intros [H|H]; [discriminate|auto]].
Qed.

Lemma fold_Rmin_spec (cs : list R) (c : R) :
  In (fold_left Rmin cs c) (c :: cs) /\ forall x, In x (c :: cs) -> fold_left Rmin cs c <= x.
Proof.
  revert c; induction cs as [|y cs IH]; intros c; simpl.
  - split; auto; intros x [<-|[]]; lra.
  - destruct (IH (Rmin c y)) as [Hin Hle]; split.
    + destruct Hin as [Hin|Hin]; auto.
      rewrite <- Hin; apply Rmin_case; auto.
    + intros x Hx.
      assert (Hm : fold_left Rmin cs (Rmin c y) <= Rmin c y) by (apply Hle; left; auto).
      destruct Hx as [->|[->|Hx]].
      * pose proof (Rmin_l x y); lra.
      * pose proof (Rmin_r c x); lra.
      * apply Hle; right; auto.
Qed.

Lemma fold_Rmax_spec (cs : list R) (c : R) :
  In (fold_left Rmax cs c) (c :: cs) /\ forall x, In x (c :: cs) -> x <= fold_left Rmax cs c.
Proof.
  revert c; induction cs as [|y cs IH]; intros c; simpl.
  - split; auto; intros x [<-|[]]; lra.
  - destruct (IH (Rmax c y)) as [Hin Hle]; split.
    + destruct Hin as [Hin|Hin]; auto.
      rewrite <- Hin; apply Rmax_case; auto.
    + intros x Hx.
      assert (Hm : Rmax c y <= fold_left Rmax cs (Rmax c y)) by (apply Hle; left; auto).
      destruct Hx as [->|[->|Hx]].
      * pose proof (Rmax_l x y); lra.
      * pose proof (Rmax_r c x); lra.
      * apply Hle; right; auto.
Qed.

(** A call without range succeeds once the default range is defined. *)
Lemma plot_peak_fits_default_ok (peaks : list peak) (lw : option R) (r : R * R) :
  default_freq_range peaks = Ok r -> peaks <> [] ->
  exists p, plot_peak_fits peaks None lw = Ok p /\ pf_freq_range p = r.
Proof.
  intros Hr Hne; unfold plot_peak_fits; rewrite Hr.
  destruct (fit_loop _ peaks _); destruct peaks; [contradiction|]; destruct lw; simpl;
  eexists; split; reflexivity.
Qed.

Lemma default_range_8_12 : default_freq_range peaks_8_12 = Ok (4, 16).
Proof.
  unfold default_freq_range, peaks_8_12; simpl.
  rewrite Rmin_left, Rmax_right by lra; unfold f_buffer.
  destruct (Rgt_dec (8 - 4) 0); [|lra].
  do 2 f_equal; lra.
Qed.

Lemma default_range_1_2 : default_freq_range peaks_1_2 = Ok (0, 6).
Proof.
  unfold default_freq_range, peaks_1_2; simpl.
  rewrite Rmin_left, Rmax_right by lra; unfold f_buffer.
  destruct (Rgt_dec (1 - 4) 0); [lra|].
  do 2 f_equal; lra.
Qed.

Lemma clamp_Rmax (x : R) : (if Rgt_dec x 0 then x else 0) = Rmax x 0.
Proof.
  unfold Rmax; destruct (Rgt_dec x 0), (Rle_dec x 0); lra.
Qed.

End PeakFitProps.

(** * Properties of the report assembler *)
Module ReportProps.
Import Labels PeakFits Reports.

Lemma length_concat_repeat {A : Type} (l : list A) (n : nat) :
  List.length (List.concat (repeat l n)) = (n * List.length l)%nat.
Proof. induction n as [|n IH]; simpl; [reflexivity|]; rewrite length_app, IH; lia. Qed.

Lemma time_layout_consistent (n : nat) (s : bool) :
  time_n_rows n s = List.length (time_height_ratios n s).
Proof.
  unfold time_n_rows, time_height_ratios; rewrite !length_app, repeat_length.
  destruct s; simpl; lia.
Qed.

Lemma event_layout_consistent (n : nat) (k s : bool) :
  event_n_rows n k s = List.length (event_height_ratios n k s).
Proof.
  unfold event_n_rows, event_height_ratios.
  rewrite !length_app, repeat_length, length_concat_repeat.
  destruct k, s; simpl; lia.
Qed.

Lemma gridspec_consistent (n : nat) (r : list R) :
  n = List.length r -> gridspec n r = ret tt.
Proof. intros ->; unfold gridspec; rewrite Nat.eqb_refl; reflexivity. Qed.

(** The figure life cycle of a report call: with every collaborator
    succeeding it succeeds; when it succeeds the figures open are those
    before the call; when it fails the figure it created is still open. *)
Definition fig_cycle (m : M unit) (st : plt_state) (ok : Prop) : Prop :=
  (ok -> fst (m st) = Ok tt) /\
  (fst (m st) = Ok tt -> open_figs (snd (m st)) = open_figs st) /\
  (forall e, fst (m st) = Err e -> open_figs (snd (m st)) = next_fig st :: open_figs st).

Ltac run_report :=
  repeat match goal with
         | |- context [c_results_str ?c] => destruct (c_results_str c) as [[]|?]
         | |- context [c_plot ?c ?k] => destruct (c_plot c k) as [[]|?]
         | |- context [c_settings_str ?c] => destruct (c_settings_str c) as [[]|?]
         | |- context [c_savefig ?c] => destruct (c_savefig c) as [[]|?]
         end;
  simpl; split; intros; try discriminate; reflexivity.

Ltac collab_ok_run :=
  let H1 := fresh in let H2 := fresh in let H3 := fresh in let H4 := fresh in
  intros (H1 & H2 & H3 & H4); rewrite H1, !H2, H3, H4; simpl; reflexivity.

Lemma model_report_cycle (s : bool) (c : collab) (st : plt_state) :
  fig_cycle (save_model_report true s c) st (collab_ok c).
Proof.
  unfold fig_cycle, save_model_report, guard, check_dependency.
  rewrite gridspec_consistent by (destruct s; reflexivity).
  split; [destruct s; collab_ok_run|]; destruct s; run_report.
Qed.

Lemma group_report_cycle (s : bool) (c : collab) (st : plt_state) :
  fig_cycle (save_group_report true s c) st (collab_ok c).
Proof.
  unfold fig_cycle, save_group_report, guard, check_dependency.
  rewrite gridspec_consistent by (destruct s; reflexivity).
  split; [destruct s; collab_ok_run|]; destruct s; run_report.
Qed.

Lemma time_report_cycle {V : Type} (s : bool) (r : results V) (c : collab) (st : plt_state) :
  fig_cycle (save_time_report true s r c) st (collab_ok c).
Proof.
  unfold fig_cycle, save_time_report, guard, check_dependency, subplots.
  rewrite gridspec_consistent by apply time_layout_consistent.
  split; [destruct s; collab_ok_run|]; destruct s; run_report.
Qed.

Lemma event_report_cycle {V : Type} (s : bool) (r : results V) (c : collab) (st : plt_state) :
  fig_cycle (save_event_report true s r c) st (collab_ok c).
Proof.
  unfold fig_cycle, save_event_report, guard, check_dependency, subplots.
  rewrite gridspec_consistent by apply event_layout_consistent.
  split; [destruct s; collab_ok_run|]; destruct s; run_report.
Qed.

End ReportProps.

(** * Claims *)
Module Claims.
Import Labels LabelProps Select PeakFits PeakFitProps Reports ReportProps.

(** C1: for a results mapping whose periodic keys are exactly the keys
    [{band}_cf], [{band}_pw], [{band}_bw] of N bands (listed in the order in
    which their [_cf] keys occur), [get_periodic_labels] has N entries in
    each of its [cf], [pw] and [bw] lists, and [get_band_labels] returns the
    N band names, distinct, in first-seen order. *)
Theorem band_labels_count_order {V : Type} (r : results V) (bands : list key) :
  NoDup (map fst r) ->
  (forall k, In k (map fst r) ->
     (forall a, matches a k = false) \/ exists b a, In b bands /\ k = band_key b a) ->
  (forall b a, In b bands -> In (band_key b a) (map fst r)) ->
  filter (ends_with (str "_cf")) (map fst r) = map (fun b => band_key b CF) bands ->
  List.length (lbl_cf (get_periodic_labels r)) = List.length bands /\
  List.length (lbl_pw (get_periodic_labels r)) = List.length bands /\
  List.length (lbl_bw (get_periodic_labels r)) = List.length bands /\
  get_band_labels (ResultsIn r) = bands /\
  NoDup (get_band_labels (ResultsIn r)).
Proof.
  intros Hk Hshape Hall Hord.
  assert (Hb : NoDup bands).
  { apply (NoDup_map_inv (fun b => band_key b CF)); rewrite <- Hord.
    apply NoDup_filter; auto. }
  assert (Hcf : lbl_cf (get_periodic_labels r) = map (fun b => band_key b CF) bands).
  { rewrite <- Hord; simpl; apply filter_ext_in; intros k Hin.
    destruct (Hshape k Hin) as [Hno | [b [a [_ ->]]]].
    - rewrite (Hno CF); symmetry.
      specialize (Hno CF); unfold matches in Hno.
      apply orb_false_elim in Hno as [Hno _]; apply orb_false_elim in Hno as [_ Hno].
      exact Hno.
    - rewrite matches_band_key, ends_with_cf, band_suffixed_band_key; auto. }
  assert (Hbl : get_band_labels (ResultsIn r) = bands).
  { unfold get_band_labels; rewrite Hcf, map_map.
    rewrite (map_ext _ (fun b => b) band_name_band_key), map_id.
    apply dedup_seen_nodup; auto. }
  repeat split.
  - apply (periodic_labels_band_count r bands CF); auto.
  - apply (periodic_labels_band_count r bands PW); auto.
  - apply (periodic_labels_band_count r bands BW); auto.
  - exact Hbl.
  - rewrite Hbl; exact Hb.
Qed.

(** Witness of C1: the mapping [tdict3] of the tests, with bands alpha, beta. *)
Lemma band_labels_count_order_witness :
  List.length (lbl_cf (get_periodic_labels tdict3)) = 2 /\
  get_band_labels (ResultsIn tdict3) = [str "alpha"; str "beta"].
Proof.
  destruct (band_labels_count_order tdict3 [str "alpha"; str "beta"])
    as [Hcf [_ [_ [Hbl _]]]].
  - vm_compute; repeat constructor; simpl; intuition discriminate.
  - intros k Hk; simpl in Hk.
    repeat destruct Hk as [<-|Hk]; try contradiction;
      first [ left; intros []; vm_compute; reflexivity
            | right; exists (str "alpha"); eexists; split; [simpl; auto|];
              first [ instantiate (1 := CF); reflexivity
                    | instantiate (1 := PW); reflexivity
                    | instantiate (1 := BW); reflexivity ]
            | right; exists (str "beta"); eexists; split; [simpl; auto|];
              first [ instantiate (1 := CF); reflexivity
                    | instantiate (1 := PW); reflexivity
                    | instantiate (1 := BW); reflexivity ] ].
  - intros b a Hb; simpl in Hb; destruct Hb as [<-|[<-|[]]]; destruct a; vm_compute;
      repeat first [left; reflexivity | right].
  - vm_compute; reflexivity.
  - split; [exact Hcf | exact Hbl].
Defined.

(** C6: for a results mapping with no periodic key (no bare [cf]/[pw]/[bw]
    key, no [{band}_a] key and no [a_{index}] key), [get_periodic_labels]
    returns empty [cf], [pw] and [bw] lists and [get_band_labels] returns the
    empty list; both are total functions, so neither fails. *)
Theorem periodic_labels_empty {V : Type} (r : results V) :
  (forall k a, In k (map fst r) ->
     k <> attr_name a /\
     (forall b, k <> band_key b a) /\
     (forall d, d <> [] -> forallb is_digit d = true -> k <> attr_name a ++ "_"%char :: d)) ->
  get_periodic_labels r = mk_labels [] [] [] /\ get_band_labels (ResultsIn r) = [].
Proof.
  intros H.
  assert (Hnone : forall a, filter (matches a) (map fst r) = []).
  { intros a; apply filter_all_false; intros k Hk.
    destruct (H k a Hk) as [H1 [H2 H3]]; apply matches_non_periodic; auto. }
  unfold get_band_labels, get_periodic_labels; rewrite !Hnone; split; reflexivity.
Qed.

(** Witness of C6: the mapping [tdict1] of the tests. *)
Lemma periodic_labels_empty_witness :
  get_periodic_labels tdict1 = mk_labels [] [] [] /\ get_band_labels (ResultsIn tdict1) = [].
Proof.
  apply periodic_labels_empty.
  intros k a Hk; simpl in Hk.
  repeat destruct Hk as [<-|Hk]; try contradiction;
    (split; [destruct a; discriminate | split;
      [ intros b Hb; apply (f_equal (@rev ascii)) in Hb; unfold band_key in Hb;
        rewrite rev_app_distr in Hb; destruct a; discriminate
      | intros d _ _ Hd; destruct a; discriminate ]]).
Defined.

(** C2: for every index [i] valid for all value sequences,
    [get_results_by_ind results i] succeeds with exactly the keys of
    [results] (same order), and its value at each key is [results[key][i]]. *)
Theorem results_by_ind_spec {A : Type} (r : results (list A)) (i : Z) :
  (forall k s, In (k, s) r -> py_index s i <> None) ->
  exists out, get_results_by_ind r i = Some out /\ map fst out = map fst r /\
    forall k s, lookup k r = Some s -> lookup k out = py_index s i.
Proof. apply select_each_spec. Qed.

(** Witness of C2: the mapping of [test_get_results_by_ind] at index 1. *)
Lemma results_by_ind_spec_witness :
  exists out, get_results_by_ind tdict_ind 1 = Some out /\
    map fst out = map fst tdict_ind /\
    forall k s, lookup k tdict_ind = Some s -> lookup k out = py_index s 1.
Proof.
  apply results_by_ind_spec.
  intros k s Hin; simpl in Hin.
  repeat destruct Hin as [Hin|Hin]; try contradiction; injection Hin as _ <-; discriminate.
Defined.

(** C3: for every row index [i] valid for all the two-dimensional arrays,
    [get_results_by_row results i] succeeds with the keys of [results], and
    its value at each key is the row [results[key][i]], element by element. *)
Theorem results_by_row_spec {A : Type} (r : results (list (list A))) (i : Z) :
  (forall k rows, In (k, rows) r -> py_index rows i <> None) ->
  exists out, get_results_by_row r i = Some out /\ map fst out = map fst r /\
    forall k rows, lookup k r = Some rows -> lookup k out = py_index rows i.
Proof. apply select_each_spec. Qed.

(** Witness of C3: the arrays of [test_get_results_by_row] at row 1. *)
Lemma results_by_row_spec_witness :
  exists out, get_results_by_row tdict_row 1 = Some out /\
    map fst out = map fst tdict_row /\
    forall k rows, lookup k tdict_row = Some rows -> lookup k out = py_index rows 1.
Proof.
  apply results_by_row_spec.
  intros k s Hin; simpl in Hin.
  repeat destruct Hin as [Hin|Hin]; try contradiction; injection Hin as _ <-; discriminate.
Defined.

(** C4 (amended): the averaged curve of [plot_peak_fits] is the NaN-safe sum
    of the per-row reconstructed curves (a NaN counts as zero) divided by the
    number of peak rows, not by the number of non-NaN contributions.  For a
    single row it equals that row's curve at every point where the curve is
    not NaN, and is 0 where it is NaN. *)
Theorem peak_fits_average (peaks : list peak) (fr : option (R * R)) (lw : option R)
  (p : fits_plot) :
  plot_peak_fits peaks fr lw = Ok p -> peaks <> [] ->
  pf_curves p = map (fun pk => map (fun f => gaussian_function f pk) (pf_freqs p)) peaks /\
  List.length (pf_avg p) = List.length (pf_freqs p) /\
  (forall j, (j < List.length (pf_freqs p))%nat ->
     nth j (pf_avg p) NaN =
     Fin (Rsum (map (fun c => nan0 (nth j c NaN)) (pf_curves p)) / INR (List.length peaks))) /\
  (forall pk, peaks = [pk] ->
     pf_avg p = map (fun v => Fin (nan0 v)) (map (fun f => gaussian_function f pk) (pf_freqs p))).
Proof.
  intros H Hne.
  apply plot_peak_fits_ok in H as [_ [_ [Hc Ha]]].
  destruct (fit_loop_spec (pf_freqs p) peaks (repeat 0%R (List.length (pf_freqs p))))
    as [Hc' [Hl Hs]]; [apply repeat_length|].
  repeat split.
  - rewrite Hc; exact Hc'.
  - rewrite Ha, length_map; exact Hl.
  - intros j Hj; rewrite Ha.
    rewrite (nth_indep _ NaN (div_count 0%R (List.length peaks))) by (rewrite length_map; lia).
    rewrite (map_nth (fun a => div_count a (List.length peaks))), Hs by exact Hj.
    rewrite nth_repeat, <- Hc.
    destruct peaks as [|pk ps]; [contradiction|].
    simpl List.length; unfold div_count; cbv iota beta; f_equal; rewrite Rplus_0_l; reflexivity.
  - intros pk ->; rewrite Ha; simpl.
    unfold nansum_rows.
    rewrite zip_with_repeat by (rewrite length_map; reflexivity).
    rewrite map_map.
    apply map_ext; intros f; unfold div_count; simpl INR; f_equal; field.
Qed.

(** Witness of C4: the two peaks of [peaks_8_12], plotted with their default range. *)
Lemma peak_fits_average_witness :
  exists p, plot_peak_fits peaks_8_12 None None = Ok p /\
    List.length (pf_avg p) = List.length (pf_freqs p).
Proof.
  destruct (plot_peak_fits_default_ok peaks_8_12 None (4, 16)%R default_range_8_12)
    as [p [Hp _]]; [discriminate|].
  exists p; split; [exact Hp|].
  apply (peak_fits_average peaks_8_12 None None p Hp); discriminate.
Defined.

(** C4, counterexample: for a single row whose parameters are NaN (a peak
    absent from that spectrum), the reconstructed curve is NaN everywhere
    while the averaged curve is 0 everywhere, so the two differ. *)
Lemma peak_fits_average_nan_row :
  ~ (forall pk fr lw p c, plot_peak_fits [pk] fr lw = Ok p -> pf_curves p = [c] -> pf_avg p = c).
Proof.
  intros H.
  destruct (plot_peak_fits [mk_peak NaN NaN NaN] (Some (5, 15)%R) None) as [p|e] eqn:E.
  2: { unfold plot_peak_fits in E; destruct (fit_loop _ _ _); discriminate. }
  pose proof (plot_peak_fits_ok _ _ _ _ E) as [Hr [Hf [Hc Ha]]].
  injection Hr as Hr.
  assert (Hne : exists f0 fs, pf_freqs p = f0 :: fs)
    by (rewrite Hf, <- Hr; unfold gen_freqs; simpl;
        destruct (Rle_dec 5 15); [eauto | lra]).
  destruct Hne as [f0 [fs Hfs]].
  specialize (H _ _ _ _ _ E Hc).
  rewrite Ha, Hfs in H; simpl in H; discriminate H.
Qed.

(** C5: without a frequency range, the plotted range of [plot_peak_fits] is
    [[min - 4, max + 4]] over the center frequencies that are not NaN, the
    lower bound clamped at zero; center frequencies [8, 12] give [[4, 16]]
    and [1, 2] give the lower bound 0. *)
Theorem peak_fits_default_range :
  (forall peaks lw p, plot_peak_fits peaks None lw = Ok p ->
     exists mn mx,
       In (Fin mn) (map pk_cf peaks) /\ (forall x, In (Fin x) (map pk_cf peaks) -> mn <= x)%R /\
       In (Fin mx) (map pk_cf peaks) /\ (forall x, In (Fin x) (map pk_cf peaks) -> x <= mx)%R /\
       pf_freq_range p = (Rmax (mn - 4) 0, mx + 4)%R) /\
  (exists p, plot_peak_fits peaks_8_12 None None = Ok p /\ pf_freq_range p = (4, 16)%R) /\
  (exists p, plot_peak_fits peaks_1_2 None None = Ok p /\ fst (pf_freq_range p) = 0%R).
Proof.
  split; [|split].
  - intros peaks lw p H.
    apply plot_peak_fits_ok in H as [Hr _].
    unfold default_freq_range in Hr.
    destruct (nonnan (map pk_cf peaks)) as [|c cs] eqn:En; [discriminate|].
    injection Hr as Hr.
    destruct (fold_Rmin_spec cs c) as [Hmn Hmn'].
    destruct (fold_Rmax_spec cs c) as [Hmx Hmx'].
    exists (fold_left Rmin cs c), (fold_left Rmax cs c).
    repeat split.
    + apply nonnan_in; rewrite En; exact Hmn.
    + intros x Hx; apply Hmn'; rewrite <- En; apply nonnan_in; exact Hx.
    + apply nonnan_in; rewrite En; exact Hmx.
    + intros x Hx; apply Hmx'; rewrite <- En; apply nonnan_in; exact Hx.
    + rewrite <- Hr, clamp_Rmax; unfold f_buffer; reflexivity.
  - apply plot_peak_fits_default_ok; [exact default_range_8_12 | discriminate].
  - destruct (plot_peak_fits_default_ok peaks_1_2 None (0, 6)%R default_range_1_2)
      as [p [Hp Hr]]; [discriminate|].
    exists p; rewrite Hr; auto.
Qed.

(** Witness of C5: the range computed for the peaks [peaks_8_12]. *)
Lemma peak_fits_default_range_witness :
  exists p, plot_peak_fits peaks_8_12 None None = Ok p /\
    exists mn mx, pf_freq_range p = (Rmax (mn - 4) 0, mx + 4)%R.
Proof.
  destruct (plot_peak_fits_default_ok peaks_8_12 None (4, 16)%R default_range_8_12)
    as [p [Hp _]]; [discriminate|].
  exists p; split; [exact Hp|].
  destruct (proj1 peak_fits_default_range peaks_8_12 None p Hp)
    as [mn [mx [_ [_ [_ [_ Hr]]]]]].
  exists mn, mx; exact Hr.
Defined.

(** C10: with a zero-row peak array and no frequency range,
    [plot_peak_fits] fails, whatever the linewidth keyword: the minimum over
    the empty set of center frequencies raises a ValueError, so no plot is
    rendered; the same holds for the default range on its own. *)
Theorem peak_fits_empty :
  (forall lw, plot_peak_fits [] None lw = Err ValueError) /\
  default_freq_range [] = Err ValueError.
Proof. split; [intros lw|]; reflexivity. Qed.

(** C7: for every number of bands [n] and every value of [has_knee] and
    [add_settings], the number of grid rows of [save_time_report]
    ([3 + n (+ 1 with settings)]) and of [save_event_report]
    ([1 + (4 with a knee, else 3) + 4 n + 2 (+ 1 with settings)]) equals the
    length of its list of height ratios. *)
Theorem report_layout_consistent (n : nat) (has_knee add_settings : bool) :
  time_n_rows n add_settings = (3 + n + (if add_settings then 1 else 0))%nat /\
  time_n_rows n add_settings = List.length (time_height_ratios n add_settings) /\
  event_n_rows n has_knee add_settings =
    (1 + (if has_knee then 4 else 3) + 4 * n + 2 + (if add_settings then 1 else 0))%nat /\
  event_n_rows n has_knee add_settings =
    List.length (event_height_ratios n has_knee add_settings).
Proof.
  split; [|split; [|split]].
  - reflexivity.
  - apply time_layout_consistent.
  - unfold event_n_rows; lia.
  - apply event_layout_consistent.
Qed.

(** C8: the four [save_*_report] functions and [plot_peak_params] fail
    with an ImportError when matplotlib is missing, but [plot_peak_fits]
    carries no dependency guard: given axes, it runs to completion. *)
Theorem dependency_guard_missing_on_peak_fits :
  (forall s c st, fst (save_model_report false s c st) = Err ImportError) /\
  (forall s c st, fst (save_group_report false s c st) = Err ImportError) /\
  (forall (V : Type) s (r : results V) c st,
     fst (save_time_report false s r c st) = Err ImportError) /\
  (forall (V : Type) s (r : results V) c st,
     fst (save_event_report false s r c st) = Err ImportError) /\
  (forall ax peaks fr sz, plot_peak_params_call false ax peaks fr sz = Err ImportError) /\
  (exists p, plot_peak_fits_call false (Some (Axes 0)) peaks_8_12 None None = Ok p).
Proof.
  repeat split; try reflexivity.
  destruct (plot_peak_fits_default_ok peaks_8_12 None (4, 16)%R default_range_8_12)
    as [p [Hp _]]; [discriminate|].
  exists p; exact Hp.
Qed.

(** C9 (amended): a [save_*_report] call (matplotlib present) that
    succeeds closes the figure it created, leaving the open figures as they
    were, and it succeeds when every rendering and save step does; when a
    step after the figure is created fails (results text, data plot,
    settings text or [savefig]), the exception propagates and that figure
    stays open. *)
Theorem report_figure_release (s : bool) (c : collab) (st : plt_state)
  (V : Type) (r : results V) :
  fig_cycle (save_model_report true s c) st (collab_ok c) /\
  fig_cycle (save_group_report true s c) st (collab_ok c) /\
  fig_cycle (save_time_report true s r c) st (collab_ok c) /\
  fig_cycle (save_event_report true s r c) st (collab_ok c).
Proof.
  repeat split; try apply model_report_cycle; try apply group_report_cycle;
    try apply time_report_cycle; apply event_report_cycle.
Qed.

(** C9, counterexample: [save_model_report] whose data plot raises leaves
    its figure open. *)
Lemma report_figure_leak_on_plot_error :
  fst (save_model_report true true (mk_collab (Ok tt) (fun _ => Err RenderError) (Ok tt) (Ok tt))
         (mk_plt [] 0)) = Err RenderError /\
  open_figs (snd (save_model_report true true
                    (mk_collab (Ok tt) (fun _ => Err RenderError) (Ok tt) (Ok tt))
                    (mk_plt [] 0))) = [0%nat].
Proof. split; reflexivity. Qed.

End Claims.

(** * Further properties of [plot_peak_fits] *)
Module PeakFitMore.
Import PeakFits PeakFitProps.
Local Open Scope R_scope.

Lemma nonnan_app (l1 l2 : list fl) : nonnan (l1 ++ l2) = nonnan l1 ++ nonnan l2.
Proof. induction l1 as [|[x|] l1 IH]; simpl; rewrite ?IH; reflexivity. Qed.


Lemma nonnan_perm (l l' : list fl) : Permutation l l' -> Permutation (nonnan l) (nonnan l').
Proof.
  induction 1 as [|[x|] l l' _ IH|[x|] [y|] l|l l' l'' _ IH1 _ IH2]; simpl; auto.
  - constructor.
  - eapply Permutation_trans; eauto.
Qed.

Lemma fold_Rmin_perm (c c' : R) (cs cs' : list R) :
  Permutation (c :: cs) (c' :: cs') -> fold_left Rmin cs c = fold_left Rmin cs' c'.
Proof.
  intros P.
  destruct (fold_Rmin_spec cs c) as [H1 H1'], (fold_Rmin_spec cs' c') as [H2 H2'].
  apply Rle_antisym.
  - apply H1'; apply (Permutation_in _ (Permutation_sym P)); exact H2.
  - apply H2'; apply (Permutation_in _ P); exact H1.
Qed.

Lemma fold_Rmax_perm (c c' : R) (cs cs' : list R) :
  Permutation (c :: cs) (c' :: cs') -> fold_left Rmax cs c = fold_left Rmax cs' c'.
Proof.
  intros P.
  destruct (fold_Rmax_spec cs c) as [H1 H1'], (fold_Rmax_spec cs' c') as [H2 H2'].
  apply Rle_antisym.
  - apply H2'; apply (Permutation_in _ P); exact H1.
  - apply H1'; apply (Permutation_in _ (Permutation_sym P)); exact H2.
Qed.

Lemma default_range_nan_row (l1 l2 : list peak) (r : peak) :
  pk_cf r = NaN -> default_freq_range (l1 ++ r :: l2) = default_freq_range (l1 ++ l2).
Proof.
  intros Hr; unfold default_freq_range.
  rewrite !map_app, !nonnan_app; simpl; rewrite Hr; reflexivity.
Qed.

Lemma default_range_perm (peaks peaks' : list peak) :
  Permutation peaks peaks' -> default_freq_range peaks = default_freq_range peaks'.
Proof.
  intros P; unfold default_freq_range.
  pose proof (nonnan_perm _ _ (Permutation_map pk_cf P)) as Q; revert Q.
  destruct (nonnan (map pk_cf peaks)) as [|c cs], (nonnan (map pk_cf peaks')) as [|c' cs'];
    intros Q.
  - reflexivity.
  - apply Permutation_nil in Q; discriminate.
  - apply Permutation_sym, Permutation_nil in Q; discriminate.
  - rewrite (fold_Rmin_perm c c' cs cs' Q), (fold_Rmax_perm c c' cs cs' Q); reflexivity.
Qed.



(** The averaged value at the j-th frequency: the NaN-safe sum over the rows
    of the reconstructed peaks at that frequency, over the number of rows. *)
Lemma plot_avg_nth (peaks : list peak) (fr : option (R * R)) (lw : option R) (p : fits_plot) :
  plot_peak_fits peaks fr lw = Ok p ->
  List.length (pf_avg p) = List.length (pf_freqs p) /\
  forall j, (j < List.length (pf_freqs p))%nat ->
    nth j (pf_avg p) NaN =
    div_count (Rsum (map (fun pk => nan0 (gaussian_function (nth j (pf_freqs p) 0) pk)) peaks))
              (List.length peaks).
Proof.
  intros H; apply plot_peak_fits_ok in H as [_ [_ [_ Ha]]].
  destruct (fit_loop_spec (pf_freqs p) peaks (repeat 0 (List.length (pf_freqs p))))
    as [Hc [Hl Hs]]; [apply repeat_length|].
  split.
  - rewrite Ha, length_map; exact Hl.
  - intros j Hj; rewrite Ha.
    rewrite (nth_indep _ NaN (div_count 0 (List.length peaks))) by (rewrite length_map; lia).
    rewrite (map_nth (fun a => div_count a (List.length peaks))), Hs by exact Hj.
    rewrite nth_repeat, Hc, map_map, Rplus_0_l; f_equal; f_equal.
    apply map_ext; intros pk.
    rewrite (nth_indep _ NaN (gaussian_function 0 pk)) by (rewrite length_map; exact Hj).
    rewrite (map_nth (fun f => gaussian_function f pk)); reflexivity.
Qed.

(** When a call succeeds. *)
Lemma plot_ok_iff (peaks : list peak) (fr : option (R * R)) (lw : option R) (r : R * R) :
  (exists p, plot_peak_fits peaks fr lw = Ok p /\ pf_freq_range p = r) <->
  range_of peaks fr = Ok r /\ (peaks <> [] \/ lw <> None).
Proof.
  unfold plot_peak_fits; fold (range_of peaks fr).
  destruct (range_of peaks fr) as [r'|e].
  - destruct (fit_loop _ peaks _).
    destruct peaks as [|pk ps]; [destruct lw|]; simpl; split.
    + intros [p [Hp <-]]; injection Hp as <-; split; [reflexivity|right; discriminate].
    + intros [Hr _]; injection Hr as <-; eexists; split; reflexivity.
    + intros [p [Hp _]]; discriminate.
    + intros [_ [H|H]]; contradiction.
    + intros [p [Hp <-]]; destruct lw; simpl in Hp; injection Hp as <-;
        split; [reflexivity|left; discriminate| reflexivity|left; discriminate].
    + intros [Hr _]; injection Hr as <-; destruct lw; simpl; eexists; split; reflexivity.
  - split; [intros [p [Hp _]]; discriminate | intros [Hr _]; discriminate].
Qed.

(** The linewidth of the averaged curve. *)
Lemma plot_avg_lw (peaks : list peak) (fr : option (R * R)) (lw : option R) (p : fits_plot) :
  plot_peak_fits peaks fr lw = Ok p ->
  pf_avg_lw p = 3 * match lw with Some w => w | None => 5 / 4 end.
Proof.
  unfold plot_peak_fits; destruct (match fr with Some r => Ok r | None => _ end); [|discriminate].
  destruct (fit_loop _ peaks _).
  destruct peaks, lw; simpl; intros H; try discriminate; injection H as <-; simpl; ring.
Qed.

Lemma plot_ok_range (peaks : list peak) (fr : option (R * R)) (lw : option R) (p : fits_plot) :
  plot_peak_fits peaks fr lw = Ok p -> range_of peaks fr = Ok (pf_freq_range p).
Proof. intros H; apply plot_peak_fits_ok in H as [H _]; exact H. Qed.

Lemma plot_ok_freqs (peaks : list peak) (fr : option (R * R)) (lw : option R) (p : fits_plot) :
  plot_peak_fits peaks fr lw = Ok p -> pf_freqs p = gen_freqs (pf_freq_range p) (1 / 10).
Proof. intros H; apply plot_peak_fits_ok in H as [_ [H _]]; exact H. Qed.

Lemma plot_ok_curves (peaks : list peak) (fr : option (R * R)) (lw : option R) (p : fits_plot) :
  plot_peak_fits peaks fr lw = Ok p ->
  pf_curves p = map (fun pk => map (fun f => gaussian_function f pk) (pf_freqs p)) peaks.
Proof.
  intros H; apply plot_peak_fits_ok in H as [_ [_ [Hc _]]]; rewrite Hc.
  apply (fit_loop_spec _ _ _ (repeat_length _ _)).
Qed.

Lemma gaussian_nan_cf (f : R) (pk : peak) : pk_cf pk = NaN -> gaussian_function f pk = NaN.
Proof. intros H; unfold gaussian_function; rewrite H; reflexivity. Qed.

Lemma Rsum_nan_rows (f : R) (peaks : list peak) :
  Forall (fun p => pk_cf p = NaN) peaks ->
  Rsum (map (fun pk => nan0 (gaussian_function f pk)) peaks) = 0.
Proof.
  induction 1 as [|pk ps Hp _ IH]; [reflexivity|].
  unfold Rsum in *; simpl; rewrite gaussian_nan_cf by exact Hp; simpl; lra.
Qed.

Lemma default_range_neg : default_freq_range peaks_neg = Ok (0, -6).
Proof.
  unfold default_freq_range, peaks_neg; simpl; unfold f_buffer.
  destruct (Rgt_dec (-10 - 4) 0); [lra|].
  do 2 f_equal; lra.
Qed.

End PeakFitMore.

(** * Further properties of the report assembler *)
Module ReportMore.
Import Labels PeakFits Reports ReportProps.

Lemma firstn_seq (k s l : nat) : firstn k (seq s l) = seq s (Nat.min k l).
Proof.
  revert s l; induction k as [|k IH]; intros s [|l]; simpl; try reflexivity.
  rewrite IH; reflexivity.
Qed.

(** [axes[1:k]] of the axes [0 .. L-1]. *)
Lemma slice_seq_from_1 (L k : nat) :
  (1 <= k <= L)%nat -> py_slice (seq 0 L) 1 (Z.of_nat k) = seq 1 (k - 1).
Proof.
  intros Hk; unfold py_slice, py_bound; rewrite length_seq.
  replace ((Z.of_nat k <? 0)%Z) with false by (symmetry; apply Z.ltb_ge; lia).
  change ((1 <? 0)%Z) with false; change (Z.to_nat 1) with 1%nat; cbv iota.
  rewrite Nat2Z.id, skipn_seq, firstn_seq; f_equal; lia.
Qed.

(** [axes[1:-1]] of the axes [0 .. L-1]. *)
Lemma slice_seq_drop_last (L : nat) :
  (2 <= L)%nat -> py_slice (seq 0 L) 1 (-1) = seq 1 (L - 2).
Proof.
  intros HL; unfold py_slice, py_bound; rewrite length_seq.
  change ((-1 <? 0)%Z) with true; change ((1 <? 0)%Z) with false;
    change (Z.to_nat 1) with 1%nat; cbv iota.
  replace (-1 + Z.of_nat L)%Z with (Z.of_nat (L - 1)) by lia.
  rewrite Nat2Z.id, skipn_seq, firstn_seq; f_equal; lia.
Qed.

(** [axes[-1]] and [axes[0]] of the axes [0 .. L-1]. *)
Lemma index_seq_last (L : nat) : (1 <= L)%nat -> Select.py_index (seq 0 L) (-1) = Some (L - 1)%nat.
Proof.
  intros HL; unfold Select.py_index; rewrite length_seq.
  change ((0 <=? -1)%Z) with false; cbv iota.
  replace ((0 <=? Z.of_nat L + -1)%Z) with true by (symmetry; apply Z.leb_le; lia).
  replace (Z.of_nat L + -1)%Z with (Z.of_nat (L - 1)) by lia.
  rewrite Nat2Z.id, nth_error_seq.
  replace (Nat.ltb (L - 1) L) with true by (symmetry; apply Nat.ltb_lt; lia); reflexivity.
Qed.

Lemma index_seq_0 (L : nat) : (1 <= L)%nat -> Select.py_index (seq 0 L) 0 = Some 0%nat.
Proof. intros HL; destruct L; [lia | reflexivity]. Qed.

(** The four report functions, called with matplotlib available. *)
Inductive report_call (V : Type) :=
| ModelReport (add_settings : bool) (c : collab)
| GroupReport (add_settings : bool) (c : collab)
| TimeReport (add_settings : bool) (r : results V) (c : collab)
| EventReport (add_settings : bool) (r : results V) (c : collab).
Arguments ModelReport {V} add_settings c.
Arguments GroupReport {V} add_settings c.
Arguments TimeReport {V} add_settings r c.
Arguments EventReport {V} add_settings r c.

Definition call_report {V : Type} (j : report_call V) : M unit :=
  match j with
  | ModelReport s c => save_model_report true s c
  | GroupReport s c => save_group_report true s c
  | TimeReport s r c => save_time_report true s r c
  | EventReport s r c => save_event_report true s r c
  end.

(** Report calls made one after the other, each from the pyplot state the
    previous one left, the exception of one call not stopping the next (a
    loop whose body catches it): the outcome of each call and the final
    state. *)
Fixpoint run_seq (ms : list (M unit)) (st : plt_state) : list (result unit) * plt_state :=
  match ms with
  | [] => ([], st)
  | m :: ms' =>
      let (r, st') := m st in
      let (rs, st'') := run_seq ms' st' in
      (r :: rs, st'')
  end.

Definition is_err {A : Type} (r : result A) : bool :=
  match r with Ok _ => false | Err _ => true end.

Lemma call_report_cycle {V : Type} (j : report_call V) (st : plt_state) :
  exists ok, fig_cycle (call_report j) st ok.
Proof.
  destruct j; eexists; simpl.
  - apply model_report_cycle.
  - apply group_report_cycle.
  - apply time_report_cycle.
  - apply event_report_cycle.
Qed.

Lemma call_report_figs {V : Type} (j : report_call V) (st : plt_state) :
  List.length (open_figs (snd (call_report j st))) =
  (List.length (open_figs st) + if is_err (fst (call_report j st)) then 1 else 0)%nat.
Proof.
  destruct (call_report_cycle j st) as [ok [_ [Hok Herr]]].
  destruct (fst (call_report j st)) as [[]|e] eqn:E; simpl.
  - rewrite Hok by reflexivity; lia.
  - rewrite (Herr e) by reflexivity; simpl; lia.
Qed.

End ReportMore.

(** * Further properties of the code *)
Module Extras.
Import Labels PeakFits PeakFitProps PeakFitMore Reports ReportProps ReportMore.
Local Open Scope R_scope.



(** X2: without a frequency range, when every center frequency that is not
    NaN is below -4, the plotted range is inverted: its lower bound is
    clamped to 0 while its upper bound is negative. *)
Theorem peak_fits_range_inverted (peaks : list peak) (lw : option R) (p : fits_plot) :
  plot_peak_fits peaks None lw = Ok p ->
  (forall c, In (Fin c) (map pk_cf peaks) -> c < -4) ->
  fst (pf_freq_range p) = 0 /\ snd (pf_freq_range p) < 0.
Proof.
  intros H Hneg; apply plot_ok_range in H; simpl in H.
  unfold default_freq_range in H; destruct (pf_freq_range p) as [lo hi]; simpl.
  destruct (nonnan (map pk_cf peaks)) as [|c0 cs] eqn:En; [discriminate|].
  injection H as Hlo Hhi; rewrite <- Hlo, <- Hhi.
  destruct (fold_Rmin_spec cs c0) as [_ Hmn], (fold_Rmax_spec cs c0) as [Hin _].
  assert (Hmx : fold_left Rmax cs c0 < -4)
    by (apply Hneg, nonnan_in; rewrite En; exact Hin).
  assert (Hle : fold_left Rmin cs c0 <= fold_left Rmax cs c0) by (apply Hmn; exact Hin).
  destruct (Rgt_dec _ 0); unfold f_buffer in *; split; lra.
Qed.

Lemma peak_fits_range_inverted_witness :
  exists p, plot_peak_fits peaks_neg None None = Ok p /\
    (forall c, In (Fin c) (map pk_cf peaks_neg) -> c < -4) /\
    fst (pf_freq_range p) = 0 /\ snd (pf_freq_range p) < 0.
Proof.
  destruct (proj2 (plot_ok_iff peaks_neg None None (0, -6)))
    as [p [Hp _]]; [split; [exact default_range_neg | left; discriminate]|].
  assert (Hneg : forall c, In (Fin c) (map pk_cf peaks_neg) -> c < -4).
  { intros c [Hc|[]]; injection Hc as <-; lra. }
  exists p; split; [exact Hp|]; split; [exact Hneg|].
  apply (peak_fits_range_inverted peaks_neg None p Hp Hneg).
Defined.

(** X3: the default frequency range ignores a row whose center frequency is
    NaN: inserting such a row anywhere in the peak array leaves it
    unchanged (also its failure on an array with no center frequency). *)
Theorem peak_fits_range_nan_row (l1 l2 : list peak) (r : peak) :
  pk_cf r = NaN -> default_freq_range (l1 ++ r :: l2) = default_freq_range (l1 ++ l2).
Proof. apply default_range_nan_row. Qed.

Lemma peak_fits_range_nan_row_witness :
  pk_cf (mk_peak NaN (Fin 1) (Fin 1)) = NaN /\
  default_freq_range (peaks_8_12 ++ [mk_peak NaN (Fin 1) (Fin 1)]) =
  default_freq_range (peaks_8_12 ++ []).
Proof.
  split; [reflexivity|].
  apply (peak_fits_range_nan_row peaks_8_12 [] (mk_peak NaN (Fin 1) (Fin 1))); reflexivity.
Defined.

(** X4: the order of the rows of the peak array does not change the frame
    of the plot: a permutation of the rows gives the same range (the
    default one is a minimum and a maximum), the same frequency axis and
    the same average linewidth, and the same individual curves in the
    permuted order. *)
Theorem peak_fits_row_order (peaks peaks' : list peak) (fr : option (R * R)) (lw : option R)
  (p : fits_plot) :
  Permutation peaks peaks' -> plot_peak_fits peaks fr lw = Ok p ->
  exists p', plot_peak_fits peaks' fr lw = Ok p' /\
    pf_freq_range p' = pf_freq_range p /\ pf_freqs p' = pf_freqs p /\
    pf_avg_lw p' = pf_avg_lw p /\
    Permutation (pf_curves p') (pf_curves p).
Proof.
  intros P Hp.
  assert (Hr : range_of peaks' fr = Ok (pf_freq_range p)).
  { rewrite <- (plot_ok_range _ _ _ _ Hp); destruct fr; simpl; [reflexivity|].
    symmetry; apply default_range_perm, P. }
  destruct (proj1 (plot_ok_iff peaks fr lw (pf_freq_range p)) (ex_intro _ p (conj Hp eq_refl)))
    as [_ Hne].
  destruct (proj2 (plot_ok_iff peaks' fr lw (pf_freq_range p))) as [p' [Hp' Hr']].
  { split; [exact Hr|]; destruct Hne as [Hne|Hne]; [left|right; exact Hne].
    intros ->; apply Permutation_sym, Permutation_nil in P; contradiction. }
  assert (Hf : pf_freqs p' = pf_freqs p)
    by (rewrite (plot_ok_freqs _ _ _ _ Hp), (plot_ok_freqs _ _ _ _ Hp'), Hr'; reflexivity).
  exists p'; split; [exact Hp'|]; split; [exact Hr'|]; split; [exact Hf|]; split.
  - rewrite (plot_avg_lw _ _ _ _ Hp), (plot_avg_lw _ _ _ _ Hp'); reflexivity.
  - rewrite (plot_ok_curves _ _ _ _ Hp), (plot_ok_curves _ _ _ _ Hp'), Hf.
    apply Permutation_map, Permutation_sym, P.
Qed.

Lemma peak_fits_row_order_witness :
  exists p, plot_peak_fits peaks_8_12 None None = Ok p /\
    exists p', plot_peak_fits (rev peaks_8_12) None None = Ok p' /\
      pf_freq_range p' = pf_freq_range p.
Proof.
  destruct (plot_peak_fits_default_ok peaks_8_12 None (4, 16) default_range_8_12)
    as [p [Hp _]]; [discriminate|].
  exists p; split; [exact Hp|].
  destruct (peak_fits_row_order peaks_8_12 (rev peaks_8_12) None None p
              (Permutation_rev _) Hp) as [p' [Hp' [Hr _]]].
  exists p'; split; [exact Hp' | exact Hr].
Defined.




(** X6: on an array with at least one row, the averaged curve has no NaN
    value, even where every reconstructed curve is NaN; when every row has
    a NaN center frequency, each reconstructed curve is NaN everywhere and
    the averaged curve is 0 everywhere. *)
Theorem peak_fits_average_finite (peaks : list peak) (fr : option (R * R)) (lw : option R)
  (p : fits_plot) :
  plot_peak_fits peaks fr lw = Ok p -> peaks <> [] ->
  Forall (fun v => v <> NaN) (pf_avg p) /\
  (Forall (fun pk => pk_cf pk = NaN) peaks ->
     Forall (Forall (fun v => v = NaN)) (pf_curves p) /\
     Forall (fun v => v = Fin 0) (pf_avg p)).
Proof.
  intros Hp Hne.
  destruct (plot_avg_nth _ _ _ _ Hp) as [Hl Ha].
  destruct peaks as [|pk0 ps]; [contradiction|].
  split; [|intros Hnan; split].
  - apply Forall_nth; intros j d Hj.
    rewrite (nth_indep _ d NaN) by exact Hj; rewrite Hl in Hj; rewrite Ha by exact Hj.
    simpl List.length; unfold div_count; discriminate.
  - rewrite (plot_ok_curves _ _ _ _ Hp).
    apply Forall_map; apply (Forall_impl _ (P := fun pk => pk_cf pk = NaN)); [|exact Hnan].
    intros pk Hpk; apply Forall_map, Forall_forall; intros f _; apply gaussian_nan_cf, Hpk.
  - apply Forall_nth; intros j d Hj.
    rewrite (nth_indep _ d NaN) by exact Hj; rewrite Hl in Hj; rewrite Ha by exact Hj.
    rewrite Rsum_nan_rows by exact Hnan.
    simpl List.length; unfold div_count; f_equal; unfold Rdiv; ring.
Qed.

Lemma peak_fits_average_finite_witness :
  exists p, plot_peak_fits peaks_nan (Some (5, 15)) None = Ok p /\
    Forall (fun v => v = Fin 0) (pf_avg p).
Proof.
  destruct (proj2 (plot_ok_iff peaks_nan (Some (5, 15)) None (5, 15)))
    as [p [Hp _]]; [split; [reflexivity | left; discriminate]|].
  exists p; split; [exact Hp|].
  apply (peak_fits_average_finite peaks_nan (Some (5, 15)) None p Hp);
    [discriminate | repeat constructor].
Defined.



(** X9: the axes of [save_time_report]: the results text goes in the first
    row, [time_model.plot] gets the [n_bands + 2] rows after it and the
    settings text, when added, the last row, so that every row of the grid
    is written exactly once; the plot rows are the ones of height ratio 0.5,
    the first row has ratio 1.0 and the settings row 0.4. *)
Theorem time_report_axes_layout (n : nat) (s : bool) :
  ax_results (time_report_axes n s) = Some 0%nat /\
  ax_plot (time_report_axes n s) = seq 1 (n + 2) /\
  ax_settings (time_report_axes n s) = (if s then Some (n + 3)%nat else None) /\
  0%nat :: ax_plot (time_report_axes n s) ++
    match ax_settings (time_report_axes n s) with Some i => [i] | None => [] end
  = seq 0 (time_n_rows n s) /\
  nth 0 (time_height_ratios n s) 0 = 1.0 /\
  Forall (fun i => nth i (time_height_ratios n s) 0 = 0.5) (ax_plot (time_report_axes n s)) /\
  match ax_settings (time_report_axes n s) with
  | Some i => nth i (time_height_ratios n s) 0 = 0.4
  | None => True
  end.
Proof.
  assert (Hp : ax_plot (time_report_axes n s) = seq 1 (n + 2)).
  { unfold time_report_axes; cbn [ax_plot].
    rewrite slice_seq_from_1 by (unfold time_n_rows; destruct s; lia).
    f_equal; lia. }
  assert (Hs : ax_settings (time_report_axes n s) = (if s then Some (n + 3)%nat else None)).
  { unfold time_report_axes; cbn [ax_settings]; destruct s; [|reflexivity].
    rewrite index_seq_last by (unfold time_n_rows; lia).
    unfold time_n_rows; f_equal; lia. }
  split; [unfold time_report_axes; cbn [ax_results]; apply index_seq_0; unfold time_n_rows; lia|].
  split; [exact Hp|]; split; [exact Hs|].
  rewrite Hp, Hs; split; [|split; [reflexivity|split]].
  - unfold time_n_rows; destruct s.
    + replace (1 + 2 + n + 1)%nat with (S (S (n + 2))) by lia.
      change (seq 0 (S (S (n + 2)))) with (0%nat :: seq 1 (S (n + 2))).
      rewrite seq_S; replace (1 + (n + 2))%nat with (n + 3)%nat by lia; reflexivity.
    + rewrite app_nil_r; replace (1 + 2 + n + 0)%nat with (S (n + 2)) by lia; reflexivity.
  - apply Forall_forall; intros i Hi; apply in_seq in Hi.
    destruct i as [|i]; [lia|]; unfold time_height_ratios; simpl.
    rewrite app_nth1 by (rewrite repeat_length; lia).
    apply nth_repeat_lt; lia.
  - destruct s; [|exact I]; unfold time_height_ratios.
    replace (n + 3)%nat with (S (n + 2)) by lia; simpl.
    rewrite app_nth2 by (rewrite repeat_length; lia).
    rewrite repeat_length, Nat.sub_diag; reflexivity.
Qed.

(** X10: the axes of [save_event_report]: the results text goes in the
    first row and [event_model.plot] gets every row strictly between the
    first and the last; the last row receives the settings text when it is
    added and nothing at all otherwise, although it is a data row of height
    ratio 1 (the settings row has ratio 1.5). *)
Theorem event_report_axes_layout (n : nat) (k s : bool) :
  ax_results (event_report_axes n k s) = Some 0%nat /\
  ax_plot (event_report_axes n k s) = seq 1 (event_n_rows n k s - 2) /\
  ax_settings (event_report_axes n k s) =
    (if s then Some (event_n_rows n k s - 1)%nat else None) /\
  0%nat :: ax_plot (event_report_axes n k s) ++ [(event_n_rows n k s - 1)%nat]
    = seq 0 (event_n_rows n k s) /\
  nth (event_n_rows n k s - 1) (event_height_ratios n k s) 0 = (if s then 1.5 else 1).
Proof.
  assert (HL : (6 <= event_n_rows n k s)%nat) by (unfold event_n_rows; destruct k, s; lia).
  assert (Hp : ax_plot (event_report_axes n k s) = seq 1 (event_n_rows n k s - 2))
    by (unfold event_report_axes; cbn [ax_plot]; apply slice_seq_drop_last; lia).
  split; [unfold event_report_axes; cbn [ax_results]; apply index_seq_0; lia|].
  split; [exact Hp|]; split.
  - unfold event_report_axes; cbn [ax_settings]; destruct s; [apply index_seq_last; lia | reflexivity].
  - split.
    + rewrite Hp; remember (event_n_rows n k s) as L eqn:EL.
      assert (E : seq 0 L = 0%nat :: seq 1 (S (L - 2)))
        by (replace L with (S (S (L - 2))) at 1 by lia; reflexivity).
      rewrite E, seq_S; replace (1 + (L - 2))%nat with (L - 1)%nat by lia; reflexivity.
    + set (pre := [2.75] ++ repeat 1 (if k then 3 else 2)%nat ++
                   List.concat (repeat [0.25; 1; 1; 1] n) ++ [0.25]).
      assert (Hl : List.length pre = ((if k then 4 else 3) + n * 4 + 1)%nat)
        by (unfold pre; rewrite !length_app, repeat_length, length_concat_repeat;
            destruct k; simpl; lia).
      assert (Hq : event_height_ratios n k s = pre ++ ([1; 1] ++ (if s then [1.5] else [])))
        by (unfold pre, event_height_ratios; rewrite <- !app_assoc; reflexivity).
      replace (event_n_rows n k s - 1)%nat with (List.length pre + if s then 2 else 1)%nat
        by (rewrite Hl; unfold event_n_rows; destruct k, s; lia).
      rewrite Hq, app_nth2_plus; destruct s; reflexivity.
Qed.

(** X11: report calls made one after the other, with matplotlib available
    and the exception of a failing call caught, leave exactly one figure
    open for each call that failed: the reports never close a figure they
    did not open, and a failing report never closes its own. *)
Theorem report_batch_leaks {V : Type} (js : list (report_call V)) (st : plt_state) :
  List.length (open_figs (snd (run_seq (map call_report js) st))) =
  (List.length (open_figs st) +
   List.length (filter is_err (fst (run_seq (map call_report js) st))))%nat.
Proof.
  revert st; induction js as [|j js IH]; intros st; simpl; [lia|].
  pose proof (call_report_figs j st) as Hj.
  destruct (call_report j st) as [r st'] eqn:E; simpl in Hj.
  specialize (IH st').
  destruct (run_seq (map call_report js) st') as [rs st''] eqn:E'; simpl in *.
  destruct (is_err r); simpl; lia.
Qed.

End Extras.
